(** * The push/pull toolbar button of GitHub Desktop

    A shallow embedding of [app/src/ui/toolbar/push-pull-button.tsx]: the
    helpers that build the ahead/behind badge and the last-fetched text, the
    eight functions that each build one [ToolbarButton] element, and
    [PushPullButton.render], which picks one of them from the props.

    A JSX element is modelled by the record of the attributes it is given;
    an attribute that is not written is [None] ([undefined] in React). *)

From Stdlib Require Import ZArith String Ascii List Bool Lia Floats.
Import ListNotations.

Local Open Scope string_scope.
Local Open Scope Z_scope.

(** ** Imported models *)

(** Modelled from the spec: the [TipState] enum of [models/tip], whose
    declaration is not part of this unit; the data model lists
    [{Valid, Unborn, Detached}]. *)
Inductive TipState : Type :=
  | Valid
  | Unborn
  | Detached.

(** [tipState === TipState.X] *)
Definition TipState_eqb (a b : TipState) : bool :=
  match a, b with
  | Valid, Valid | Unborn, Unborn | Detached, Detached => true
  | _, _ => false
  end.

(** [IAheadBehind] of [models/branch]: two commit counts.  They are
    JavaScript numbers holding integers; [Z] also covers the negative values
    the type does not exclude. *)
Record IAheadBehind : Type := {
  ahead : Z;
  behind : Z
}.

(** A JavaScript [Date], by its time value (milliseconds since the epoch). *)
Definition Date : Type := Z.

(** [FetchType] of [models/fetch]; the button only names this member. *)
Inductive FetchType : Type :=
  | UserInitiatedTask.

(** The octicons this file names. *)
Inductive OcticonSymbol : Type :=
  | arrowSmallUp
  | arrowSmallDown
  | sync
  | cloudUpload
  | arrowDown
  | arrowUp.

(** Modelled from the spec: the [Progress] interface of [models/progress],
    whose declaration is not part of this unit; the data model gives
    [{title: String, description: Optional<String>, value: Float}]. *)
Module ProgressModel.
Record Progress : Type := {
  title : string;
  description : option string;
  value : float
}.
End ProgressModel.
Abbreviation Progress := ProgressModel.Progress.

(** ** JSX elements built by this file *)

(** The three arrow functions bound on the component: [this.push],
  [this.pull] and [this.fetch]. *)
Inductive Handler : Type :=
| push
| pull
| fetch.

(** [<span key=...>{count}<Octicon symbol=... /></span>] *)
Record Span : Type := {
key : string;
count : Z;
symbol : OcticonSymbol
}.

(** [<div className=...>{content}</div>] *)
Record Div : Type := {
divClassName : string;
content : list Span
}.

(** The entries of a badge; none when there is no badge. *)
Definition entries (badge : option Div) : list Span :=
  match badge with
  | Some d => content d
  | None => []
  end.

(** What [renderLastFetched] returns, [JSX.Element | string]: either a plain
  string or the element
  [<span>Last fetched <RelativeTime date={date} /></span>]. *)
Inductive Description : Type :=
| Text (s : string)
| LastFetchedSpan (date : Date).

Module Button.
(** [ToolbarButtonStyle]; the button only names this member. *)
Inductive ToolbarButtonStyle : Type :=
  | Subtitle.

(** A [<ToolbarButton ...>children</ToolbarButton>] element.  [children]
    is [None] both when the element has no child and when its only child
    is [null]: React paints nothing in either case. *)
Record ToolbarButton : Type := {
  title : string;
  description : Description;
  progressValue : option float;
  className : string;
  icon : OcticonSymbol;
  iconClassName : option string;
  style : ToolbarButtonStyle;
  tooltip : option string;
  disabled : option bool;
  onClick : option Handler;
  children : option Div
}.

(** The button is enabled unless [disabled={true}] was given. *)
Definition enabled (b : ToolbarButton) : bool :=
  match disabled b with
  | Some true => false
  | _ => true
  end.

(** The badge entries the button shows: those of its child, if any. *)
Definition badge (b : ToolbarButton) : list Span := entries (children b).
End Button.
Abbreviation ToolbarButton := Button.ToolbarButton.
Abbreviation Subtitle := Button.Subtitle.

(** ** JavaScript operators used by the file *)

(** [s || d] on [s : string | undefined]: [undefined] and the empty string
    are falsy. *)
Definition string_or (s : option string) (d : string) : string :=
  match s with
  | None => d
  | Some EmptyString => d
  | Some (String _ _ as s') => s'
  end.

(** [b || false] on [b : boolean | undefined]. *)
Definition bool_or_false (b : option bool) : bool :=
  match b with
  | Some true => true
  | Some false => false
  | None => false
  end.

(** [!!x] on an object or [null]. *)
Definition notnot {A : Type} (x : option A) : bool :=
  match x with
  | Some _ => true
  | None => false
  end.

(** ** Helpers *)

Definition renderAheadBehind (progress : option Progress)
    (aheadBehind : option IAheadBehind) : option Div :=
  match aheadBehind, progress with
  | None, _ => None
  | Some _, Some _ => None
  | Some ab, None =>
    if (ahead ab =? 0) && (behind ab =? 0) then None
    else
      let content := [] in
      let content :=
        if 0 <? ahead ab
        then (content ++ [ {| key := "ahead"; count := ahead ab;
                              symbol := arrowSmallUp |} ])%list
        else content in
      let content :=
        if 0 <? behind ab
        then (content ++ [ {| key := "behind"; count := behind ab;
                              symbol := arrowSmallDown |} ])%list
        else content in
      Some {| divClassName := "ahead-behind"; content := content |}
  end.

Definition renderLastFetched (lastFetched : option Date) : Description :=
  match lastFetched with
  | Some date => LastFetchedSpan date
  | None => Text "Never fetched"
  end.

(** ** The eight buttons *)

(** [progress] is an object here, hence truthy: the tooltip is always
    [progress.description]. *)
Definition progressButton (progress : Progress)
    (networkActionInProgress : bool) (aheadBehind : option IAheadBehind)
    : ToolbarButton :=
  {| Button.title := ProgressModel.title progress;
     Button.description :=
       Text (string_or (ProgressModel.description progress) "Hang on…");
     Button.progressValue := Some (ProgressModel.value progress);
     Button.className := "push-pull-button";
     Button.icon := sync;
     Button.iconClassName :=
       Some (if networkActionInProgress then "spin" else EmptyString);
     Button.style := Subtitle;
     Button.tooltip := ProgressModel.description progress;
     Button.disabled := Some true;
     Button.onClick := None;
     Button.children := renderAheadBehind (Some progress) aheadBehind |}.

Definition publishRepositoryButton (onClick : Handler) : ToolbarButton :=
  {| Button.title := "Publish repository";
     Button.description := Text "Publish this repository to GitHub";
     Button.progressValue := None;
     Button.className := "push-pull-button";
     Button.icon := cloudUpload;
     Button.iconClassName := None;
     Button.style := Subtitle;
     Button.tooltip := None;
     Button.disabled := None;
     Button.onClick := Some onClick;
     Button.children := None |}.

Definition unbornRepositoryButton : ToolbarButton :=
  {| Button.title := "Publish branch";
     Button.description := Text "Cannot publish unborn HEAD";
     Button.progressValue := None;
     Button.className := "push-pull-button";
     Button.icon := cloudUpload;
     Button.iconClassName := None;
     Button.style := Subtitle;
     Button.tooltip := None;
     Button.disabled := Some true;
     Button.onClick := None;
     Button.children := None |}.

Definition detachedHeadButton (rebaseInProgress : bool) : ToolbarButton :=
  let description :=
    if rebaseInProgress
    then "Rebase in progress"
    else "Cannot publish detached HEAD" in
  {| Button.title := "Publish branch";
     Button.description := Text description;
     Button.progressValue := None;
     Button.className := "push-pull-button";
     Button.icon := cloudUpload;
     Button.iconClassName := None;
     Button.style := Subtitle;
     Button.tooltip := None;
     Button.disabled := Some true;
     Button.onClick := None;
     Button.children := None |}.

Definition publishBranchButton (isGitHub : bool) (onClick : Handler)
    : ToolbarButton :=
  let description :=
    if isGitHub
    then "Publish this branch to GitHub"
    else "Publish this branch to the remote" in
  {| Button.title := "Publish branch";
     Button.description := Text description;
     Button.progressValue := None;
     Button.className := "push-pull-button";
     Button.icon := cloudUpload;
     Button.iconClassName := None;
     Button.style := Subtitle;
     Button.tooltip := None;
     Button.disabled := None;
     Button.onClick := Some onClick;
     Button.children := None |}.

Definition fetchButton (remoteName : string) (aheadBehind : IAheadBehind)
    (lastFetched : option Date) (onClick : Handler) : ToolbarButton :=
  let title := ("Fetch " ++ remoteName)%string in
  {| Button.title := title;
     Button.description := renderLastFetched lastFetched;
     Button.progressValue := None;
     Button.className := "push-pull-button";
     Button.icon := sync;
     Button.iconClassName := None;
     Button.style := Subtitle;
     Button.tooltip := None;
     Button.disabled := None;
     Button.onClick := Some onClick;
     Button.children := renderAheadBehind None (Some aheadBehind) |}.

(** ** Abrupt completion

    Reading a property of [null] raises a [TypeError] in JavaScript.  The
    type checker rules it out where a [null] test comes first; the checked
    variant of [render] below keeps the test and the read apart, so that
    this is proved and not assumed. *)

Inductive Completion (A : Type) : Type :=
  | Normal (a : A)
  | TypeError.
Arguments Normal {A} a.
Arguments TypeError {A}.

Definition bind {A B : Type} (c : Completion A) (k : A -> Completion B)
    : Completion B :=
  match c with
  | Normal a => k a
  | TypeError => TypeError
  end.

Notation "x <- c ;; k" := (bind c (fun x => k))
  (at level 61, c at next level, right associativity).

(** [o.f], [const { f } = o] or the use of [o] where a non-null value is
    expected. *)
Definition deref {A : Type} (o : option A) : Completion A :=
  match o with
  | Some a => Normal a
  | None => TypeError
  end.

(** [x === null] *)
Definition isNull {A : Type} (x : option A) : bool :=
  match x with
  | Some _ => false
  | None => true
  end.

(** ** The specification's data model and priority table

    The second definition of the selection, following the words of the
    specification: the status snapshot, the tag of a descriptor
    ([{InProgress, PublishRepo, PublishBranchDisabled, PublishBranch, Fetch,
    Pull, Push}]) and the ordered table in which the first rule whose
    condition holds gives the kind. *)
Module Spec.

Record SyncStatus : Type := {
  aheadBehind : option IAheadBehind;
  remoteName : option string;
  tipState : TipState;
  rebaseInProgress : bool;
  pullWithRebasePreference : option bool;
  networkActionInProgress : bool;
  lastFetched : option Date;
  progress : option Progress;
  isGitHubHosted : bool
}.

Inductive Kind : Type :=
  | InProgress
  | PublishRepo
  | PublishBranchDisabled
  | PublishBranch
  | Fetch
  | Pull
  | Push.

Definition select_kind (status : SyncStatus) : Kind :=
  match progress status with
  | Some _ => InProgress                                  (* priority 1 *)
  | None =>
    match remoteName status with
    | None => PublishRepo                                 (* priority 2 *)
    | Some _ =>
      match tipState status with
      | Unborn => PublishBranchDisabled                   (* priority 3 *)
      | Detached => PublishBranchDisabled                 (* priority 4 *)
      | Valid =>
        match aheadBehind status with
        | None => PublishBranch                           (* priority 5 *)
        | Some ab =>
          if (ahead ab =? 0) && (behind ab =? 0) then Fetch   (* 6 *)
          else if 0 <? behind ab then Pull                    (* 7 *)
          else Push                                           (* 8 *)
        end
      end
    end
  end.

End Spec.

(** ** The component *)

Module PushPullButton.

Section Component.

(** The [GitHubRepository] and [Dispatcher] classes are declared elsewhere;
    the button only tests the former against [null] and calls three methods
    of the latter from its click handlers. *)
Context {GitHubRepository Dispatcher : Type}.

(** What [enablePullWithRebase()] of [lib/feature-flag] returns. *)
Variable enablePullWithRebase : bool.

(** The part of [Repository] the button reads. *)
Record Repository : Type := {
  gitHubRepository : option GitHubRepository
}.

Record IPushPullButtonProps : Type := {
  aheadBehind : option IAheadBehind;
  remoteName : option string;
  networkActionInProgress : bool;
  lastFetched : option Date;
  progress : option Progress;
  dispatcher : Dispatcher;
  repository : Repository;
  tipState : TipState;
  pullWithRebase : option bool;
  rebaseInProgress : bool
}.

Definition pullButton (remoteName : string) (aheadBehind : IAheadBehind)
    (lastFetched : option Date) (pullWithRebase : bool) (onClick : Handler)
    : ToolbarButton :=
  let title :=
    if pullWithRebase && enablePullWithRebase
    then ("Pull " ++ remoteName ++ " with rebase")%string
    else ("Pull " ++ remoteName)%string in
  {| Button.title := title;
     Button.description := renderLastFetched lastFetched;
     Button.progressValue := None;
     Button.className := "push-pull-button";
     Button.icon := arrowDown;
     Button.iconClassName := None;
     Button.style := Subtitle;
     Button.tooltip := None;
     Button.disabled := None;
     Button.onClick := Some onClick;
     Button.children := renderAheadBehind None (Some aheadBehind) |}.

Definition pushButton (remoteName : string) (aheadBehind : IAheadBehind)
    (lastFetched : option Date) (onClick : Handler) : ToolbarButton :=
  let title := ("Push " ++ remoteName)%string in
  {| Button.title := title;
     Button.description := renderLastFetched lastFetched;
     Button.progressValue := None;
     Button.className := "push-pull-button";
     Button.icon := arrowUp;
     Button.iconClassName := None;
     Button.style := Subtitle;
     Button.tooltip := None;
     Button.disabled := None;
     Button.onClick := Some onClick;
     Button.children := renderAheadBehind None (Some aheadBehind) |}.

(** A call of a method of the dispatcher, with its arguments. *)
Inductive DispatcherCall : Type :=
  | dispatcher_push (d : Dispatcher) (r : Repository)
  | dispatcher_pull (d : Dispatcher) (r : Repository)
  | dispatcher_fetch (d : Dispatcher) (r : Repository) (t : FetchType).

(** What running a handler does: the bodies of [push], [pull], [fetch]. *)
Definition run (props : IPushPullButtonProps) (h : Handler)
    : DispatcherCall :=
  match h with
  | push => dispatcher_push (dispatcher props) (repository props)
  | pull => dispatcher_pull (dispatcher props) (repository props)
  | fetch =>
    dispatcher_fetch (dispatcher props) (repository props) UserInitiatedTask
  end.

Definition render (props : IPushPullButtonProps) : ToolbarButton :=
  match progress props with
  | Some progress =>
    progressButton progress (networkActionInProgress props)
      (aheadBehind props)
  | None =>
    match remoteName props with
    | None => publishRepositoryButton push
    | Some remoteName =>
      if TipState_eqb (tipState props) Unborn then unbornRepositoryButton
      else if TipState_eqb (tipState props) Detached
      then detachedHeadButton (rebaseInProgress props)
      else
        match aheadBehind props with
        | None =>
          let isGitHub := notnot (gitHubRepository (repository props)) in
          publishBranchButton isGitHub push
        | Some aheadBehind =>
          if (ahead aheadBehind =? 0) && (behind aheadBehind =? 0)
          then fetchButton remoteName aheadBehind (lastFetched props) fetch
          else if 0 <? behind aheadBehind
          then pullButton remoteName aheadBehind (lastFetched props)
                 (bool_or_false (pullWithRebase props)) pull
          else pushButton remoteName aheadBehind (lastFetched props) push
        end
    end
  end.

(** [render] with every read of a nullable value explicit, statement by
    statement as in the source. *)
Definition render_checked (props : IPushPullButtonProps)
    : Completion ToolbarButton :=
  if negb (isNull (progress props)) then
    progress <- deref (progress props) ;;
    Normal (progressButton progress (networkActionInProgress props)
              (aheadBehind props))
  else if isNull (remoteName props) then
    Normal (publishRepositoryButton push)
  else if TipState_eqb (tipState props) Unborn then
    Normal unbornRepositoryButton
  else if TipState_eqb (tipState props) Detached then
    Normal (detachedHeadButton (rebaseInProgress props))
  else if isNull (aheadBehind props) then
    let isGitHub := notnot (gitHubRepository (repository props)) in
    Normal (publishBranchButton isGitHub push)
  else
    remoteName <- deref (remoteName props) ;;
    aheadBehind <- deref (aheadBehind props) ;;
    if (ahead aheadBehind =? 0) && (behind aheadBehind =? 0) then
      Normal (fetchButton remoteName aheadBehind (lastFetched props) fetch)
    else if 0 <? behind aheadBehind then
      Normal (pullButton remoteName aheadBehind (lastFetched props)
                (bool_or_false (pullWithRebase props)) pull)
    else
      Normal (pushButton remoteName aheadBehind (lastFetched props) push).

(** ** Which button is which

    [is_kind k b]: [b] is an element one of the builders of kind [k] makes.
    The two disabled publish-branch buttons share a kind. *)
Inductive is_kind : Spec.Kind -> ToolbarButton -> Prop :=
  | is_progress progress networkActionInProgress aheadBehind :
      is_kind Spec.InProgress
        (progressButton progress networkActionInProgress aheadBehind)
  | is_publishRepository onClick :
      is_kind Spec.PublishRepo (publishRepositoryButton onClick)
  | is_unbornRepository :
      is_kind Spec.PublishBranchDisabled unbornRepositoryButton
  | is_detachedHead rebaseInProgress :
      is_kind Spec.PublishBranchDisabled (detachedHeadButton rebaseInProgress)
  | is_publishBranch isGitHub onClick :
      is_kind Spec.PublishBranch (publishBranchButton isGitHub onClick)
  | is_fetch remoteName aheadBehind lastFetched onClick :
      is_kind Spec.Fetch
        (fetchButton remoteName aheadBehind lastFetched onClick)
  | is_pull remoteName aheadBehind lastFetched pullWithRebase onClick :
      is_kind Spec.Pull
        (pullButton remoteName aheadBehind lastFetched pullWithRebase onClick)
  | is_push remoteName aheadBehind lastFetched onClick :
      is_kind Spec.Push (pushButton remoteName aheadBehind lastFetched onClick).

(** The status snapshot the props carry: every prop but the dispatcher,
    and of the repository only whether it is hosted on GitHub. *)
Definition status_of (props : IPushPullButtonProps) : Spec.SyncStatus :=
  {| Spec.aheadBehind := aheadBehind props;
     Spec.remoteName := remoteName props;
     Spec.tipState := tipState props;
     Spec.rebaseInProgress := rebaseInProgress props;
     Spec.pullWithRebasePreference := pullWithRebase props;
     Spec.networkActionInProgress := networkActionInProgress props;
     Spec.lastFetched := lastFetched props;
     Spec.progress := progress props;
     Spec.isGitHubHosted := notnot (gitHubRepository (repository props)) |}.

(** The kind the table gives the props. *)
Definition spec_select (props : IPushPullButtonProps) : Spec.Kind :=
  Spec.select_kind (status_of props).

(** Props that differ from [props] in [lastFetched] only. *)
Definition with_lastFetched (props : IPushPullButtonProps)
    (lastFetched' : option Date) : IPushPullButtonProps :=
  {| aheadBehind := aheadBehind props;
     remoteName := remoteName props;
     networkActionInProgress := networkActionInProgress props;
     lastFetched := lastFetched';
     progress := progress props;
     dispatcher := dispatcher props;
     repository := repository props;
     tipState := tipState props;
     pullWithRebase := pullWithRebase props;
     rebaseInProgress := rebaseInProgress props |}.

(** Props that differ from [props] in [pullWithRebase] only. *)
Definition with_pullWithRebase (props : IPushPullButtonProps)
    (pullWithRebase' : option bool) : IPushPullButtonProps :=
  {| aheadBehind := aheadBehind props;
     remoteName := remoteName props;
     networkActionInProgress := networkActionInProgress props;
     lastFetched := lastFetched props;
     progress := progress props;
     dispatcher := dispatcher props;
     repository := repository props;
     tipState := tipState props;
     pullWithRebase := pullWithRebase';
     rebaseInProgress := rebaseInProgress props |}.

(** A button with its description replaced. *)
Definition with_description (b : ToolbarButton) (d : Description)
    : ToolbarButton :=
  {| Button.title := Button.title b;
     Button.description := d;
     Button.progressValue := Button.progressValue b;
     Button.className := Button.className b;
     Button.icon := Button.icon b;
     Button.iconClassName := Button.iconClassName b;
     Button.style := Button.style b;
     Button.tooltip := Button.tooltip b;
     Button.disabled := Button.disabled b;
     Button.onClick := Button.onClick b;
     Button.children := Button.children b |}.

(** How the attributes of a button tell its kind: the icon, whether it is
    enabled and, between the two enabled publish buttons, the title. *)
Definition classify (b : ToolbarButton) : Spec.Kind :=
  match Button.icon b with
  | sync => if Button.enabled b then Spec.Fetch else Spec.InProgress
  | cloudUpload =>
    if Button.enabled b then
      if (Button.title b =? "Publish repository")%string
      then Spec.PublishRepo else Spec.PublishBranch
    else Spec.PublishBranchDisabled
  | arrowDown => Spec.Pull
  | arrowUp => Spec.Push
  | arrowSmallUp | arrowSmallDown => Spec.InProgress
  end.

(** Props that differ from [props] in [networkActionInProgress] only. *)
Definition with_networkActionInProgress (props : IPushPullButtonProps)
    (networkActionInProgress' : bool) : IPushPullButtonProps :=
  {| aheadBehind := aheadBehind props;
     remoteName := remoteName props;
     networkActionInProgress := networkActionInProgress';
     lastFetched := lastFetched props;
     progress := progress props;
     dispatcher := dispatcher props;
     repository := repository props;
     tipState := tipState props;
     pullWithRebase := pullWithRebase props;
     rebaseInProgress := rebaseInProgress props |}.

(** Props that differ from [props] in [rebaseInProgress] only. *)
Definition with_rebaseInProgress (props : IPushPullButtonProps)
    (rebaseInProgress' : bool) : IPushPullButtonProps :=
  {| aheadBehind := aheadBehind props;
     remoteName := remoteName props;
     networkActionInProgress := networkActionInProgress props;
     lastFetched := lastFetched props;
     progress := progress props;
     dispatcher := dispatcher props;
     repository := repository props;
     tipState := tipState props;
     pullWithRebase := pullWithRebase props;
     rebaseInProgress := rebaseInProgress' |}.

(** Props that differ from [props] in [repository] only. *)
Definition with_repository (props : IPushPullButtonProps)
    (repository' : Repository) : IPushPullButtonProps :=
  {| aheadBehind := aheadBehind props;
     remoteName := remoteName props;
     networkActionInProgress := networkActionInProgress props;
     lastFetched := lastFetched props;
     progress := progress props;
     dispatcher := dispatcher props;
     repository := repository';
     tipState := tipState props;
     pullWithRebase := pullWithRebase props;
     rebaseInProgress := rebaseInProgress props |}.

(** Props that differ from [props] in [dispatcher] only. *)
Definition with_dispatcher (props : IPushPullButtonProps)
    (dispatcher' : Dispatcher) : IPushPullButtonProps :=
  {| aheadBehind := aheadBehind props;
     remoteName := remoteName props;
     networkActionInProgress := networkActionInProgress props;
     lastFetched := lastFetched props;
     progress := progress props;
     dispatcher := dispatcher';
     repository := repository props;
     tipState := tipState props;
     pullWithRebase := pullWithRebase props;
     rebaseInProgress := rebaseInProgress props |}.

(** ** Three sentences of the specification, as they are worded

    Each is stated for one status; the properties below say for which
    statuses it holds. *)

(** "With [progress] present the result is In-Progress, disabled, with no
    action and no badge; the progress title and description are shown
    verbatim; the icon spins iff [networkActionInProgress]." *)
Definition claim_in_progress (props : IPushPullButtonProps) : Prop :=
  forall pr, progress props = Some pr ->
    let b := render props in
    is_kind Spec.InProgress b /\
    Button.enabled b = false /\
    Button.onClick b = None /\
    Button.children b = None /\
    Button.title b = ProgressModel.title pr /\
    (forall s, ProgressModel.description pr = Some s ->
               Button.description b = Text s) /\
    (Button.iconClassName b = Some "spin" <->
     networkActionInProgress props = true).

(** "With [behind > 0] and [ahead > 0] the result is Pull, with action
    Pull, and never Push." *)
Definition claim_pull_first (props : IPushPullButtonProps) : Prop :=
  forall ab, aheadBehind props = Some ab -> 0 < behind ab -> 0 < ahead ab ->
    let b := render props in
    is_kind Spec.Pull b /\
    Button.onClick b = Some pull /\
    ~ is_kind Spec.Push b.

(** "With [tipState = Unborn] the result is the disabled Publish-Branch
    variant, with no action." *)
Definition claim_unborn (props : IPushPullButtonProps) : Prop :=
  tipState props = Unborn ->
    let b := render props in
    is_kind Spec.PublishBranchDisabled b /\
    Button.enabled b = false /\
    Button.onClick b = None.

End Component.

End PushPullButton.
Import PushPullButton.

(** ** Sample statuses

    The scenarios of the specification and a few more, with a dispatcher and
    a repository that carry nothing. *)

Definition sample (progress : option Progress) (remoteName : option string)
    (tipState : TipState) (aheadBehind : option IAheadBehind)
    : @IPushPullButtonProps unit unit :=
  {| aheadBehind := aheadBehind;
     remoteName := remoteName;
     networkActionInProgress := false;
     lastFetched := None;
     progress := progress;
     dispatcher := tt;
     repository := {| gitHubRepository := None |};
     tipState := tipState;
     pullWithRebase := None;
     rebaseInProgress := false |}.

Definition counts (ahead behind : Z) : option IAheadBehind :=
  Some {| ahead := ahead; behind := behind |}.

(** Scenario A: never published. *)
Definition unpublished := sample None None Valid None.

(** Scenario B: in sync with [origin]. *)
Definition in_sync := sample None (Some "origin") Valid (counts 0 0).

(** Scenario C: two ahead, three behind. *)
Definition diverged := sample None (Some "origin") Valid (counts 2 3).

(** Scenario D: four ahead. *)
Definition ahead_only := sample None (Some "origin") Valid (counts 4 0).

(** Scenario E: detached by a rebase. *)
Definition detached_rebasing : @IPushPullButtonProps unit unit :=
  {| aheadBehind := None;
     remoteName := Some "origin";
     networkActionInProgress := false;
     lastFetched := None;
     progress := None;
     dispatcher := tt;
     repository := {| gitHubRepository := None |};
     tipState := Detached;
     pullWithRebase := None;
     rebaseInProgress := true |}.

(** A push under way whose progress carries an empty description. *)
Definition pushing_blank :=
  sample
    (Some {| ProgressModel.title := "Pushing to origin";
             ProgressModel.description := Some EmptyString;
             ProgressModel.value := 0.5%float |})
    (Some "origin") Valid (counts 2 0).

(** A push under way whose progress carries a description. *)
Definition pushing :=
  sample
    (Some {| ProgressModel.title := "Pushing to origin";
             ProgressModel.description := Some "Writing objects";
             ProgressModel.value := 0.5%float |})
    (Some "origin") Valid (counts 2 0).

(** Two ahead and three behind, but never published. *)
Definition diverged_unpublished := sample None None Valid (counts 2 3).

(** No commit yet and never published. *)
Definition unborn_unpublished := sample None None Unborn None.

(** No commit yet, with a remote. *)
Definition unborn := sample None (Some "origin") Unborn (counts 1 1).

(** A branch of [origin] that has no upstream yet. *)
Definition unpublished_branch := sample None (Some "origin") Valid None.

(** One commit behind [origin]. *)
Definition behind_only := sample None (Some "origin") Valid (counts 0 1).

(** * Properties *)

Section Properties.

Context {GitHubRepository Dispatcher : Type}.
Variable enablePullWithRebase : bool.

Local Abbreviation Props := (@IPushPullButtonProps GitHubRepository Dispatcher).
Local Abbreviation render := (render enablePullWithRebase).
Local Abbreviation render_checked := (render_checked enablePullWithRebase).
Local Abbreviation is_kind := (is_kind enablePullWithRebase).
Local Abbreviation pullButton := (pullButton enablePullWithRebase).

(** ** The code and the table agree *)

Lemma is_kind_classify (k : Spec.Kind) (b : ToolbarButton) :
  is_kind k b -> classify b = k.
Proof.
  intros H; destruct H; try reflexivity.
Qed.

Lemma is_kind_functional (k k' : Spec.Kind) (b : ToolbarButton) :
  is_kind k b -> is_kind k' b -> k = k'.
Proof.
  intros H H'.
  apply is_kind_classify in H. apply is_kind_classify in H'. congruence.
Qed.

(** Each row of the table, with the button [render] returns for it. *)
Lemma render_refines (props : Props) :
  match spec_select props with
  | Spec.InProgress =>
      exists pr, progress props = Some pr /\
        render props =
          progressButton pr (networkActionInProgress props)
            (aheadBehind props)
  | Spec.PublishRepo =>
      progress props = None /\ remoteName props = None /\
      render props = publishRepositoryButton push
  | Spec.PublishBranchDisabled =>
      progress props = None /\ remoteName props <> None /\
      ((tipState props = Unborn /\ render props = unbornRepositoryButton) \/
       (tipState props = Detached /\
        render props = detachedHeadButton (rebaseInProgress props)))
  | Spec.PublishBranch =>
      progress props = None /\ remoteName props <> None /\
      tipState props = Valid /\ aheadBehind props = None /\
      render props =
        publishBranchButton (notnot (gitHubRepository (repository props)))
          push
  | Spec.Fetch =>
      exists r ab,
        progress props = None /\ remoteName props = Some r /\
        tipState props = Valid /\ aheadBehind props = Some ab /\
        ahead ab = 0 /\ behind ab = 0 /\
        render props = fetchButton r ab (lastFetched props) fetch
  | Spec.Pull =>
      exists r ab,
        progress props = None /\ remoteName props = Some r /\
        tipState props = Valid /\ aheadBehind props = Some ab /\
        0 < behind ab /\
        render props =
          pullButton r ab (lastFetched props)
            (bool_or_false (pullWithRebase props)) pull
  | Spec.Push =>
      exists r ab,
        progress props = None /\ remoteName props = Some r /\
        tipState props = Valid /\ aheadBehind props = Some ab /\
        behind ab <= 0 /\ ~ (ahead ab = 0 /\ behind ab = 0) /\
        render props = pushButton r ab (lastFetched props) push
  end.
Proof.
  unfold spec_select, Spec.select_kind, render; cbn.
  destruct (progress props) as [pr|]; [eauto|].
  destruct (remoteName props) as [r|]; [|auto].
  destruct (tipState props); cbn.
  - destruct (aheadBehind props) as [ab|]; [|repeat split; congruence].
    destruct (ahead ab =? 0) eqn:Ha, (behind ab =? 0) eqn:Hb; cbn;
      try destruct (0 <? behind ab) eqn:Hc; exists r, ab;
      repeat match goal with
             | |- _ /\ _ => split
             end; try reflexivity; lia.
  - repeat split; [congruence | left; auto].
  - repeat split; [congruence | right; auto].
Qed.

Lemma render_kind (props : Props) :
  is_kind (spec_select props) (render props).
Proof.
  pose proof (render_refines props) as H.
  destruct (spec_select props).
  - destruct H as (pr & _ & ->). constructor.
  - destruct H as (_ & _ & ->). constructor.
  - destruct H as (_ & _ & [[_ ->] | [_ ->]]); constructor.
  - destruct H as (_ & _ & _ & _ & ->). constructor.
  - destruct H as (r & ab & _ & _ & _ & _ & _ & _ & ->). constructor.
  - destruct H as (r & ab & _ & _ & _ & _ & _ & ->). constructor.
  - destruct H as (r & ab & _ & _ & _ & _ & _ & _ & ->). constructor.
Qed.

Lemma kind_of_render (props : Props) (k : Spec.Kind) :
  is_kind k (render props) <-> k = spec_select props.
Proof.
  split.
  - intros H. exact (is_kind_functional _ _ _ H (render_kind props)).
  - intros ->. apply render_kind.
Qed.

(** No read of [null]: the checked [render] completes normally, with the
    button of [render]. *)
Lemma render_checked_normal (props : Props) :
  render_checked props = Normal (render props).
Proof.
  unfold render_checked, render.
  destruct (progress props), (remoteName props), (tipState props),
    (aheadBehind props) as [ab|]; cbn; try reflexivity;
    destruct ((ahead ab =? 0) && (behind ab =? 0)); try reflexivity;
    destruct (0 <? behind ab); reflexivity.
Qed.


(** [render] reads the props through the status snapshot only. *)
Lemma render_status (props props' : Props) :
  status_of props' = status_of props -> render props' = render props.
Proof.
  intros H.
  pose proof (f_equal Spec.progress H) as Hp.
  pose proof (f_equal Spec.remoteName H) as Hr.
  pose proof (f_equal Spec.tipState H) as Ht.
  pose proof (f_equal Spec.aheadBehind H) as Hab.
  pose proof (f_equal Spec.rebaseInProgress H) as Hrb.
  pose proof (f_equal Spec.pullWithRebasePreference H) as Hpr.
  pose proof (f_equal Spec.networkActionInProgress H) as Hn.
  pose proof (f_equal Spec.lastFetched H) as Hl.
  pose proof (f_equal Spec.isGitHubHosted H) as Hg.
  cbn in *. unfold PushPullButton.render.
  rewrite Hp, Hr, Ht, Hab, Hrb, Hpr, Hn, Hl, Hg. reflexivity.
Qed.

(** Turns every [is_kind k (render props)] of the context and of the goal
    into an equation on the row of the table. *)
Ltac to_rows :=
  repeat match goal with
         | H : PushPullButton.is_kind _ _ (PushPullButton.render _ _) |- _ =>
             apply kind_of_render in H
         end;
  try rewrite !kind_of_render.

(** Splits on the row of the table that applies to [props], leaving the
    equation of [render] for that row in the context. *)
Ltac by_row props :=
  let Hrow := fresh "Hrow" in
  let Hk := fresh "Hk" in
  pose proof (render_refines props) as Hrow;
  destruct (spec_select props) eqn:Hk;
  repeat match goal with
         | H : exists _, _ |- _ => destruct H
         | H : _ /\ _ |- _ => destruct H
         | H : _ \/ _ |- _ => destruct H
         end.

(** Identifies two readings of the same optional prop, and rewrites with the
    equation of [render]. *)
Ltac same_props :=
  repeat match goal with
         | H : ?f ?p = Some ?x, H' : ?f ?p = Some ?y |- _ =>
             assert (x = y) by congruence; subst x; clear H
         | H : PushPullButton.render _ _ = _ |- _ => rewrite H; clear H
         end.

(** The entries of the badge the helper makes for counts, outside of any
    operation. *)
Lemma entries_renderAheadBehind (ab : IAheadBehind) :
  entries (renderAheadBehind None (Some ab)) =
  ((if 0 <? ahead ab
    then [ {| key := "ahead"; count := ahead ab; symbol := arrowSmallUp |} ]
    else []) ++
   (if 0 <? behind ab
    then [ {| key := "behind"; count := behind ab;
              symbol := arrowSmallDown |} ]
    else []))%list.
Proof.
  unfold renderAheadBehind.
  destruct (Z.eqb_spec (ahead ab) 0) as [Ha | Ha];
    destruct (Z.eqb_spec (behind ab) 0) as [Hb | Hb]; cbn;
    try rewrite Ha; try rewrite Hb;
    destruct (0 <? ahead ab); destruct (0 <? behind ab); reflexivity.
Qed.

(** From an entry with a given key among explicit entries to the sign of
    its count, and back. *)
Ltac has_entry :=
  let e := fresh "e" in
  let Hin := fresh "Hin" in
  let Hkey := fresh "Hkey" in
  intros (e & Hin & Hkey); cbn in Hin;
  repeat (destruct Hin as [Hin | Hin];
          [subst e; cbn in Hkey; try discriminate Hkey; try lia|]);
  try contradiction.

Ltac find_entry :=
  intros ?;
  first [ lia
        | eexists; split; [left; reflexivity | reflexivity]
        | eexists; split; [right; left; reflexivity | reflexivity] ].

(** A string grows when a non-empty string is appended to it. *)
Lemma append_nonempty_neq (r s : string) :
  s <> EmptyString -> (r ++ s)%string <> r.
Proof.
  intros Hs. induction r as [|c r IH]; cbn.
  - exact Hs.
  - intros H. injection H as H. exact (IH H).
Qed.

(** ** The properties of the specification *)

(** C1 (amended).  With [progress] present, whatever the other fields are,
    [render] returns the in-progress button: disabled, with no click
    handler and no badge, titled with the progress title; its description
    is the progress description when that is present and not empty, and the
    fixed text "Hang on…" when it is absent or empty; the icon spins iff
    [networkActionInProgress] is true. *)
Theorem in_progress_first (props : Props) (pr : Progress) :
  progress props = Some pr ->
  let b := render props in
  is_kind Spec.InProgress b /\
  Button.enabled b = false /\
  Button.onClick b = None /\
  Button.children b = None /\
  Button.title b = ProgressModel.title pr /\
  (forall s, ProgressModel.description pr = Some s -> s <> EmptyString ->
             Button.description b = Text s) /\
  (ProgressModel.description pr = None \/
   ProgressModel.description pr = Some EmptyString ->
   Button.description b = Text "Hang on…") /\
  (Button.iconClassName b = Some "spin" <->
   networkActionInProgress props = true).
Proof.
  intros Hp b. subst b. unfold PushPullButton.render. rewrite Hp.
  repeat split.
  - constructor.
  - cbn. destruct (aheadBehind props); reflexivity.
  - intros s Hs Hne. cbn. rewrite Hs. destruct s; [contradiction|reflexivity].
  - intros [Hd | Hd]; cbn; rewrite Hd; reflexivity.
  - cbn. destruct (networkActionInProgress props); [reflexivity|discriminate].
  - intros ->. reflexivity.
Qed.

(** C2 (amended).  With [behind > 0] and [ahead > 0], [render] never returns
    the push button; and when no earlier rule applies ([progress] absent,
    [remoteName] present, the tip neither unborn nor detached) it returns the
    pull button, bound to [pull]. *)
Theorem pull_before_push (props : Props) (ab : IAheadBehind) :
  aheadBehind props = Some ab -> 0 < behind ab -> 0 < ahead ab ->
  let b := render props in
  ~ is_kind Spec.Push b /\
  (progress props = None -> remoteName props <> None ->
   tipState props <> Unborn -> tipState props <> Detached ->
   is_kind Spec.Pull b /\ Button.onClick b = Some pull).
Proof.
  intros Hab Hb Ha b. subst b. split.
  - intros H. to_rows. by_row props; try discriminate.
    same_props. lia.
  - intros Hp Hr Hu Hd. to_rows.
    by_row props; try congruence; same_props; try lia.
    split; reflexivity.
Qed.

(** C3.  The button [render] returns has a click handler iff it is enabled:
    the in-progress and the two disabled publish-branch buttons are disabled
    and have none; the publish-repository, publish-branch and push buttons
    are enabled and bound to [push], the fetch button to [fetch] and the
    pull button to [pull]. *)
Theorem action_iff_enabled (props : Props) :
  let b := render props in
  (Button.onClick b <> None <-> Button.enabled b = true) /\
  (is_kind Spec.InProgress b \/ is_kind Spec.PublishBranchDisabled b ->
   Button.enabled b = false /\ Button.onClick b = None) /\
  (is_kind Spec.PublishRepo b \/ is_kind Spec.PublishBranch b \/
   is_kind Spec.Push b ->
   Button.enabled b = true /\ Button.onClick b = Some push) /\
  (is_kind Spec.Fetch b ->
   Button.enabled b = true /\ Button.onClick b = Some fetch) /\
  (is_kind Spec.Pull b ->
   Button.enabled b = true /\ Button.onClick b = Some pull).
Proof.
  intros b. subst b. to_rows.
  by_row props;
    repeat match goal with
           | H : PushPullButton.render _ _ = _ |- _ => rewrite H; clear H
           end;
    cbn; repeat split; intros; try reflexivity; try discriminate;
    try congruence;
    repeat match goal with
           | H : _ \/ _ |- _ => destruct H
           end; discriminate.
Qed.

(** C4.  The button [render] returns has a badge only when [progress] is
    absent, [aheadBehind] is present and its counts are not both zero.  The
    helper makes no badge when an operation is in progress or the counts are
    absent; otherwise its entries are an ahead entry iff [ahead > 0] and a
    behind entry iff [behind > 0], each with its count and arrow, the ahead
    entry first. *)
Theorem badge_only_with_counts (props : Props) :
  (Button.children (render props) <> None ->
   progress props = None /\
   exists ab, aheadBehind props = Some ab /\
              ~ (ahead ab = 0 /\ behind ab = 0)) /\
  (forall pr ab, pr <> None \/ ab = None -> renderAheadBehind pr ab = None) /\
  (forall ab,
     let es := entries (renderAheadBehind None (Some ab)) in
     ((exists e, In e es /\ key e = "ahead") <-> 0 < ahead ab) /\
     ((exists e, In e es /\ key e = "behind") <-> 0 < behind ab) /\
     (forall e, In e es ->
        e = {| key := "ahead"; count := ahead ab; symbol := arrowSmallUp |}
        \/
        e = {| key := "behind"; count := behind ab;
               symbol := arrowSmallDown |}) /\
     (length es <= 2)%nat /\
     (forall e, nth_error es 1 = Some e -> key e = "behind")).
Proof.
  split; [|split].
  - unfold PushPullButton.render.
    destruct (progress props) as [pr|] eqn:Hp.
    { cbn. destruct (aheadBehind props); intros H; now elim H. }
    destruct (remoteName props); [|intros H; now elim H].
    destruct (tipState props); cbn; try (intros H; now elim H).
    destruct (aheadBehind props) as [ab|]; [|intros H; now elim H].
    destruct ((ahead ab =? 0) && (behind ab =? 0)) eqn:Hz.
    + cbn. rewrite Hz. intros H; now elim H.
    + intros _. split; [reflexivity|]. exists ab. split; [reflexivity|].
      intros [Ha Hb]. rewrite Ha, Hb in Hz. discriminate.
  - intros pr ab [H | ->]; [|reflexivity].
    destruct ab, pr; try reflexivity. now elim H.
  - intros ab es. subst es. rewrite entries_renderAheadBehind.
    destruct (Z.ltb_spec 0 (ahead ab)) as [Ha | Ha];
      destruct (Z.ltb_spec 0 (behind ab)) as [Hb | Hb]; cbn;
      (split; [split; [has_entry | find_entry]|]);
      (split; [split; [has_entry | find_entry]|]);
      (split; [intros e Hin; cbn in Hin;
               repeat (destruct Hin as [Hin | Hin]; [subst; auto|]);
               contradiction|]);
      (split; [lia|]);
      intros e He; cbn in He; try discriminate; now inversion He.
Qed.

(** C5 (amended).  With [progress] absent, [remoteName] present and the tip
    unborn, [render] returns the disabled publish-branch button, with no
    click handler, whatever [aheadBehind] and the other fields are. *)
Theorem unborn_cannot_publish (props : Props) :
  progress props = None -> remoteName props <> None ->
  tipState props = Unborn ->
  let b := render props in
  b = unbornRepositoryButton /\
  is_kind Spec.PublishBranchDisabled b /\
  Button.enabled b = false /\
  Button.onClick b = None.
Proof.
  intros Hp Hr Ht b. subst b.
  assert (render props = unbornRepositoryButton) as ->.
  { unfold PushPullButton.render. rewrite Hp, Ht.
    destruct (remoteName props); [reflexivity | now elim Hr]. }
  repeat split. constructor.
Qed.

(** C6.  With [progress] and [remoteName] both absent, [render] returns the
    publish-repository button, enabled and bound to [push], whatever the tip
    state and the counts are. *)
Theorem publish_repository_without_remote (props : Props) :
  progress props = None -> remoteName props = None ->
  let b := render props in
  b = publishRepositoryButton push /\
  is_kind Spec.PublishRepo b /\
  Button.enabled b = true /\
  Button.onClick b = Some push.
Proof.
  intros Hp Hr b. subst b.
  assert (render props = publishRepositoryButton push) as ->.
  { unfold PushPullButton.render. rewrite Hp, Hr. reflexivity. }
  repeat split. constructor.
Qed.

(** C7.  When [render] returns the pull button, for the remote [r], its
    title is "Pull r with rebase" iff [pullWithRebase] is true and the
    rebase-pull flag is on, and "Pull r" otherwise. *)
Theorem pull_title_rebase_iff (props : Props) :
  is_kind Spec.Pull (render props) ->
  exists r,
    remoteName props = Some r /\
    (Button.title (render props) = ("Pull " ++ r ++ " with rebase")%string
     <-> pullWithRebase props = Some true /\ enablePullWithRebase = true) /\
    (~ (pullWithRebase props = Some true /\ enablePullWithRebase = true) ->
     Button.title (render props) = ("Pull " ++ r)%string).
Proof.
  intros H. to_rows. by_row props; try discriminate.
  match goal with
  | Hr : remoteName props = Some ?r |- _ => exists r; split; [exact Hr|]
  end.
  same_props. cbn.
  destruct (pullWithRebase props) as [[|]|], enablePullWithRebase; cbn;
    (split; [split|]);
    try (intros [? ?]; discriminate);
    try (intros _; split; reflexivity);
    try (intros _; reflexivity);
    try (intros Hn; elim Hn; split; reflexivity);
    intros Ht; injection Ht as Ht; symmetry in Ht;
    now apply append_nonempty_neq in Ht.
Qed.

(** C8.  [render] is total and reads nothing but the status: it completes
    normally on every props, without reading a property of [null], and
    returns a button of one of the kinds; and on two props that carry the
    same status, under the same flag, it completes with the same button. *)
Theorem render_total_deterministic (props : Props) :
  render_checked props = Normal (render props) /\
  (exists k, is_kind k (render props)) /\
  (forall props' : Props,
     status_of props' = status_of props ->
     render_checked props' = render_checked props).
Proof.
  split; [apply render_checked_normal|split].
  - exists (spec_select props). apply render_kind.
  - intros props' H. rewrite !render_checked_normal.
    f_equal. now apply render_status.
Qed.

(** C9.  An omitted [pullWithRebase] is read as [false]: [render] returns
    what it returns for [pullWithRebase = false], and the pull button then
    carries the plain title "Pull r" whatever the rebase-pull flag is. *)
Theorem pullWithRebase_omitted_is_false (props : Props) :
  pullWithRebase props = None ->
  render props = render (with_pullWithRebase props (Some false)) /\
  (is_kind Spec.Pull (render props) ->
   exists r, remoteName props = Some r /\
             Button.title (render props) = ("Pull " ++ r)%string).
Proof.
  intros Hn. split.
  - unfold PushPullButton.render; cbn. rewrite Hn. reflexivity.
  - intros H. to_rows. by_row props; try discriminate.
    match goal with
    | Hr : remoteName props = Some ?r |- _ => exists r; split; [exact Hr|]
    end.
    same_props. rewrite Hn. reflexivity.
Qed.

(** C10.  Two props that differ in [lastFetched] only get buttons of the
    same kind, equally enabled, with the same click handler and the same
    badge, and indeed the same in every attribute but the description; the
    descriptions differ at most on the fetch, pull and push buttons. *)
Theorem lastFetched_changes_description_only (props props' : Props) :
  props' = with_lastFetched props (lastFetched props') ->
  let b := render props in
  let b' := render props' in
  (forall k, is_kind k b <-> is_kind k b') /\
  Button.enabled b = Button.enabled b' /\
  Button.onClick b = Button.onClick b' /\
  Button.children b = Button.children b' /\
  with_description b' (Button.description b) = b /\
  (Button.description b <> Button.description b' ->
   is_kind Spec.Fetch b \/ is_kind Spec.Pull b \/ is_kind Spec.Push b).
Proof.
  intros H b b'. subst b b'.
  assert (spec_select props' = spec_select props) as Hk
    by (rewrite H; reflexivity).
  split; [intros k; to_rows; now rewrite Hk|].
  to_rows.
  assert (Hsame :
    spec_select props <> Spec.Fetch -> spec_select props <> Spec.Pull ->
    spec_select props <> Spec.Push -> render props' = render props).
  { intros Hf Hl Hs. rewrite H.
    unfold spec_select, Spec.select_kind in Hf, Hl, Hs. cbn in Hf, Hl, Hs.
    unfold PushPullButton.render; cbn.
    destruct (progress props), (remoteName props), (tipState props),
      (aheadBehind props) as [ab|]; cbn in *; try reflexivity.
    destruct ((ahead ab =? 0) && (behind ab =? 0)); [congruence|].
    destruct (0 <? behind ab); congruence. }
  assert (Hrest :
    with_description (render props') (Button.description (render props)) =
    render props /\
    Button.enabled (render props) = Button.enabled (render props') /\
    Button.onClick (render props) = Button.onClick (render props') /\
    Button.children (render props) = Button.children (render props')).
  { rewrite H. unfold PushPullButton.render; cbn.
    destruct (progress props), (remoteName props), (tipState props),
      (aheadBehind props) as [ab|]; cbn; auto;
      destruct ((ahead ab =? 0) && (behind ab =? 0)); auto;
      destruct (0 <? behind ab); auto. }
  destruct Hrest as (Hd & He & Hc & Hb).
  repeat split; try assumption.
  intros Hne.
  destruct (spec_select props) eqn:Hsel; auto;
    elim Hne; rewrite Hsame; congruence.
Qed.

(** ** Further properties of the code *)

(** Splits on the four props the rules test, and on the tests of the
    counts. *)
Ltac by_props props :=
  unfold spec_select, Spec.select_kind, PushPullButton.render; cbn;
  destruct (progress props) as [?pr|] eqn:?Hprogress;
  [| destruct (remoteName props) as [?r|] eqn:?Hremote;
     [ destruct (tipState props) eqn:?Htip;
       [ destruct (aheadBehind props) as [?ab|] eqn:?Hcounts;
         [ match goal with
           | ab : IAheadBehind |- _ =>
               destruct (Z.eqb_spec (ahead ab) 0);
               destruct (Z.eqb_spec (behind ab) 0);
               destruct (Z.ltb_spec 0 (behind ab))
           end
         | ]
       | | ]
     | ] ];
  cbn.

(** Proves the conditions of a row from the equations [by_props] leaves. *)
Ltac row_facts :=
  repeat match goal with
         | |- _ /\ _ => split
         | |- _ <> _ => discriminate
         | |- exists _, _ => eexists
         | |- _ = _ => reflexivity
         end;
  try assumption; try lia.

(** X1.  With [progress] absent, [remoteName] present and the tip detached,
    [render] returns the disabled publish-branch button, with no click
    handler and no badge, whatever the counts are; its description is
    "Rebase in progress" iff [rebaseInProgress] is true and "Cannot publish
    detached HEAD" iff it is false. *)
Theorem detached_head_cannot_publish (props : Props) :
  progress props = None -> remoteName props <> None ->
  tipState props = Detached ->
  let b := render props in
  is_kind Spec.PublishBranchDisabled b /\
  Button.title b = "Publish branch" /\
  Button.enabled b = false /\
  Button.onClick b = None /\
  Button.children b = None /\
  (Button.description b = Text "Rebase in progress" <->
   rebaseInProgress props = true) /\
  (Button.description b = Text "Cannot publish detached HEAD" <->
   rebaseInProgress props = false).
Proof.
  intros Hp Hr Ht b. subst b.
  assert (render props = detachedHeadButton (rebaseInProgress props)) as ->.
  { unfold PushPullButton.render. rewrite Hp, Ht.
    destruct (remoteName props); [reflexivity | now elim Hr]. }
  split; [constructor|].
  destruct (rebaseInProgress props); cbn;
    repeat split; intros; try reflexivity; discriminate.
Qed.

(** X2.  With [progress] absent, [remoteName] present, the tip neither unborn
    nor detached and no counts, [render] returns the enabled publish-branch
    button, bound to [push], with no badge; its description names GitHub iff
    the repository has a GitHub repository, and "the remote" iff it has
    none. *)
Theorem publish_branch_without_upstream (props : Props) :
  progress props = None -> remoteName props <> None ->
  tipState props <> Unborn -> tipState props <> Detached ->
  aheadBehind props = None ->
  let b := render props in
  is_kind Spec.PublishBranch b /\
  Button.title b = "Publish branch" /\
  Button.enabled b = true /\
  Button.onClick b = Some push /\
  Button.children b = None /\
  (Button.description b = Text "Publish this branch to GitHub" <->
   gitHubRepository (repository props) <> None) /\
  (Button.description b = Text "Publish this branch to the remote" <->
   gitHubRepository (repository props) = None).
Proof.
  intros Hp Hr Hu Hd Hab b. subst b.
  assert (render props =
          publishBranchButton (notnot (gitHubRepository (repository props)))
            push) as ->.
  { unfold PushPullButton.render. rewrite Hp, Hab.
    destruct (remoteName props); [|now elim Hr].
    destruct (tipState props); [reflexivity | now elim Hu | now elim Hd]. }
  split; [constructor|].
  destruct (gitHubRepository (repository props)); cbn;
    repeat split; intros; try reflexivity; try discriminate;
    try congruence.
Qed.

(** X3.  [render] returns the fetch button exactly when [progress] is
    absent, [remoteName] is present, the tip is neither unborn nor detached
    and both counts are zero; the button is then titled "Fetch r" for the
    remote [r] and has no badge. *)
Theorem fetch_iff_in_sync (props : Props) :
  let b := render props in
  (is_kind Spec.Fetch b <->
   progress props = None /\ remoteName props <> None /\
   tipState props <> Unborn /\ tipState props <> Detached /\
   exists ab, aheadBehind props = Some ab /\
              ahead ab = 0 /\ behind ab = 0) /\
  (is_kind Spec.Fetch b ->
   exists r, remoteName props = Some r /\
             Button.title b = ("Fetch " ++ r)%string /\
             Button.children b = None).
Proof.
  intros b. subst b. split.
  - rewrite kind_of_render. split.
    + by_props props; intros Hkind; try discriminate Hkind; row_facts.
    + intros (Hp & Hr & Hu & Hd & ab & Hab & Ha & Hb).
      unfold spec_select, Spec.select_kind; cbn. rewrite Hp, Hab.
      destruct (remoteName props); [|now elim Hr].
      destruct (tipState props); [|now elim Hu|now elim Hd].
      rewrite Ha, Hb. reflexivity.
  - intros H. to_rows. by_row props; try discriminate.
    same_props.
    match goal with
    | Hr : remoteName props = Some ?r |- _ => exists r; split; [exact Hr|]
    end.
    split; [reflexivity|]. cbn.
    match goal with
    | Ha : ahead _ = 0, Hb : behind _ = 0 |- _ => rewrite Ha, Hb
    end.
    reflexivity.
Qed.

(** X4.  [render] returns the pull button exactly when [progress] is absent,
    [remoteName] is present, the tip is neither unborn nor detached and
    [behind > 0]; its badge then ends with the behind entry, after the ahead
    entry when [ahead > 0]. *)
Theorem pull_iff_behind (props : Props) :
  let b := render props in
  (is_kind Spec.Pull b <->
   progress props = None /\ remoteName props <> None /\
   tipState props <> Unborn /\ tipState props <> Detached /\
   exists ab, aheadBehind props = Some ab /\ 0 < behind ab) /\
  (is_kind Spec.Pull b ->
   exists ab,
     aheadBehind props = Some ab /\
     Button.badge b =
       ((if 0 <? ahead ab
         then [ {| key := "ahead"; count := ahead ab;
                   symbol := arrowSmallUp |} ]
         else []) ++
        [ {| key := "behind"; count := behind ab;
             symbol := arrowSmallDown |} ])%list).
Proof.
  intros b. subst b. split.
  - rewrite kind_of_render. split.
    + by_props props; intros Hkind; try discriminate Hkind; row_facts.
    + intros (Hp & Hr & Hu & Hd & ab & Hab & Hb).
      unfold spec_select, Spec.select_kind; cbn. rewrite Hp, Hab.
      destruct (remoteName props); [|now elim Hr].
      destruct (tipState props); [|now elim Hu|now elim Hd].
      destruct (Z.eqb_spec (behind ab) 0); [lia|].
      rewrite andb_false_r.
      destruct (Z.ltb_spec 0 (behind ab)); [reflexivity|lia].
  - intros H. to_rows. by_row props; try discriminate.
    same_props.
    match goal with
    | Hc : aheadBehind props = Some ?ab |- _ => exists ab; split; [exact Hc|]
    end.
    unfold Button.badge. cbn [Button.children PushPullButton.pullButton].
    rewrite entries_renderAheadBehind.
    match goal with
    | Hb : 0 < behind ?ab |- _ =>
        destruct (Z.ltb_spec 0 (behind ab)); [reflexivity|lia]
    end.
Qed.

(** X5.  [render] returns the push button exactly when [progress] is absent,
    [remoteName] is present, the tip is neither unborn nor detached, the
    counts are not both zero and [behind] is not positive; it is titled
    "Push r" for the remote [r], its badge never has a behind entry, and for
    counts that are not negative [ahead > 0], [behind = 0] and the badge is
    the ahead entry alone. *)
Theorem push_iff_ahead_only (props : Props) :
  let b := render props in
  (is_kind Spec.Push b <->
   progress props = None /\ remoteName props <> None /\
   tipState props <> Unborn /\ tipState props <> Detached /\
   exists ab, aheadBehind props = Some ab /\ behind ab <= 0 /\
              ~ (ahead ab = 0 /\ behind ab = 0)) /\
  (is_kind Spec.Push b ->
   exists r ab,
     remoteName props = Some r /\ aheadBehind props = Some ab /\
     Button.title b = ("Push " ++ r)%string /\
     (forall e, In e (Button.badge b) -> key e <> "behind") /\
     (0 <= ahead ab -> 0 <= behind ab ->
      0 < ahead ab /\ behind ab = 0 /\
      Button.badge b =
        [ {| key := "ahead"; count := ahead ab; symbol := arrowSmallUp |} ])).
Proof.
  intros b. subst b. split.
  - rewrite kind_of_render. split.
    + by_props props; intros Hkind; try discriminate Hkind; row_facts.
    + intros (Hp & Hr & Hu & Hd & ab & Hab & Hb & Hz).
      unfold spec_select, Spec.select_kind; cbn. rewrite Hp, Hab.
      destruct (remoteName props); [|now elim Hr].
      destruct (tipState props); [|now elim Hu|now elim Hd].
      destruct (Z.eqb_spec (ahead ab) 0); destruct (Z.eqb_spec (behind ab) 0);
        cbn; try (elim Hz; split; assumption);
        destruct (Z.ltb_spec 0 (behind ab)); try reflexivity; lia.
  - intros H. to_rows. by_row props; try discriminate.
    same_props.
    match goal with
    | Hr : remoteName props = Some ?r, Hc : aheadBehind props = Some ?ab |- _ =>
        exists r, ab; split; [exact Hr|]; split; [exact Hc|]
    end.
    split; [reflexivity|].
    unfold Button.badge. cbn [Button.children PushPullButton.pushButton].
    rewrite entries_renderAheadBehind.
    match goal with
    | Hb : behind ?ab <= 0 |- _ =>
        destruct (Z.ltb_spec 0 (behind ab)); [lia|];
        destruct (Z.ltb_spec 0 (ahead ab)); cbn
    end.
    + split.
      * intros e [<- | []]. discriminate.
      * intros Ha Hb. repeat split; lia || reflexivity.
    + split.
      * intros e [].
      * intros Ha Hb. exfalso. lia.
Qed.

(** X6.  The progress bar, the tooltip and the icon class belong to the
    in-progress button alone: the button [render] returns carries the
    progress value and the progress description as tooltip when [progress]
    is present, and none of the three attributes when it is absent. *)
Theorem progress_attributes (props : Props) :
  let b := render props in
  Button.progressValue b = option_map ProgressModel.value (progress props) /\
  Button.tooltip b =
    match progress props with
    | Some pr => ProgressModel.description pr
    | None => None
    end /\
  (Button.iconClassName b <> None <-> progress props <> None).
Proof.
  intros b. subst b. by_props props;
    repeat split; intros; try reflexivity; try discriminate; congruence.
Qed.

(** X7.  On the button [render] returns the icon and the click handler go
    together: the handler is [pull] iff the icon is the down arrow, [fetch]
    iff the icon is the sync icon on an enabled button, and [push] iff the
    icon is the up arrow or the cloud on an enabled button. *)
Theorem icon_matches_action (props : Props) :
  let b := render props in
  (Button.onClick b = Some pull <-> Button.icon b = arrowDown) /\
  (Button.onClick b = Some fetch <->
   Button.icon b = sync /\ Button.enabled b = true) /\
  (Button.onClick b = Some push <->
   Button.icon b = arrowUp \/
   (Button.icon b = cloudUpload /\ Button.enabled b = true)).
Proof.
  intros b. subst b. by_props props;
    repeat split; intros;
    repeat match goal with
           | H : _ /\ _ |- _ => destruct H
           | H : _ \/ _ |- _ => destruct H
           end;
    try reflexivity; try discriminate; auto.
Qed.

(** The helper makes no badge during an operation, and outside of one makes
    none exactly for counts that are both zero. *)
Lemma renderAheadBehind_in_progress (pr : Progress)
    (ab : option IAheadBehind) :
  renderAheadBehind (Some pr) ab = None.
Proof. destruct ab; reflexivity. Qed.

Lemma renderAheadBehind_none_iff (ab : IAheadBehind) :
  renderAheadBehind None (Some ab) = None <-> ahead ab = 0 /\ behind ab = 0.
Proof.
  unfold renderAheadBehind.
  destruct (Z.eqb_spec (ahead ab) 0), (Z.eqb_spec (behind ab) 0); cbn;
    split; intros H; try discriminate; try tauto; lia.
Qed.

(** X8.  The button [render] returns has a badge exactly when it is the pull
    or the push button. *)
Theorem badge_iff_pull_or_push (props : Props) :
  let b := render props in
  Button.children b <> None <-> is_kind Spec.Pull b \/ is_kind Spec.Push b.
Proof.
  intros b. subst b. rewrite !kind_of_render.
  by_row props; same_props;
    cbn [Button.children progressButton publishRepositoryButton
         unbornRepositoryButton detachedHeadButton publishBranchButton
         fetchButton PushPullButton.pullButton PushPullButton.pushButton];
    try rewrite renderAheadBehind_in_progress;
    try rewrite renderAheadBehind_none_iff;
    (split; [intros Hc | intros [Hx | Hx]; try discriminate Hx]);
    try (now elim Hc); auto; lia.
Qed.

(** X9.  Every entry of a badge the helper makes carries a positive count,
    and no two entries carry the same key; so it is for the badge of the
    button [render] returns. *)
Theorem badge_entries_positive_distinct (props : Props)
    (pr : option Progress) (ab : option IAheadBehind) :
  (forall e, In e (entries (renderAheadBehind pr ab)) -> 0 < count e) /\
  NoDup (map key (entries (renderAheadBehind pr ab))) /\
  (forall e, In e (Button.badge (render props)) -> 0 < count e) /\
  NoDup (map key (Button.badge (render props))).
Proof.
  assert (Hhelper : forall pr' ab',
    (forall e, In e (entries (renderAheadBehind pr' ab')) -> 0 < count e) /\
    NoDup (map key (entries (renderAheadBehind pr' ab')))).
  { intros pr' ab'.
    destruct pr' as [pr'|];
      [rewrite renderAheadBehind_in_progress; cbn;
       split; [intros e []|constructor]|].
    destruct ab' as [ab'|]; [|cbn; split; [intros e []|constructor]].
    rewrite entries_renderAheadBehind.
    destruct (Z.ltb_spec 0 (ahead ab')), (Z.ltb_spec 0 (behind ab')); cbn;
      (split;
       [ intros e Hin;
         repeat (destruct Hin as [Hin | Hin]; [subst e; cbn; lia|]);
         contradiction
       | repeat constructor; cbn; intuition discriminate ]). }
  destruct (Hhelper pr ab) as [H1 H2].
  assert (Hb : Button.children (render props) = None \/
               exists pr' ab', Button.children (render props) =
                               renderAheadBehind pr' ab').
  { by_row props; same_props;
      cbn [Button.children progressButton publishRepositoryButton
           unbornRepositoryButton detachedHeadButton publishBranchButton
           fetchButton PushPullButton.pullButton PushPullButton.pushButton];
      auto; right; eexists _, _; reflexivity. }
  unfold Button.badge.
  destruct Hb as [-> | (pr' & ab' & ->)].
  - repeat split; try assumption; cbn; [intros e []|constructor].
  - destruct (Hhelper pr' ab'). repeat split; assumption.
Qed.

(** X10.  A badge the helper makes is the [ahead-behind] element, and it is
    empty exactly when neither count is positive; so for counts that are
    not negative a badge is never empty. *)
Theorem badge_empty_iff_nonpositive (pr : option Progress)
    (ab : IAheadBehind) (d : Div) :
  renderAheadBehind pr (Some ab) = Some d ->
  divClassName d = "ahead-behind" /\
  (content d = [] <-> ahead ab <= 0 /\ behind ab <= 0) /\
  (0 <= ahead ab -> 0 <= behind ab -> content d <> []).
Proof.
  unfold renderAheadBehind. destruct pr; [discriminate|].
  destruct (Z.eqb_spec (ahead ab) 0), (Z.eqb_spec (behind ab) 0); cbn;
    try discriminate;
    destruct (Z.ltb_spec 0 (ahead ab)), (Z.ltb_spec 0 (behind ab)); cbn;
    intros Hd; injection Hd as <-; cbn;
    repeat split; intros; try discriminate; try lia; try reflexivity.
Qed.

(** X11.  With the rebase-pull flag off the [pullWithRebase] preference is
    never read: [render] returns the same button whatever it is. *)
Theorem flag_off_ignores_preference (props : Props) (x : option bool) :
  enablePullWithRebase = false ->
  render (with_pullWithRebase props x) = render props.
Proof.
  intros Hflag.
  unfold PushPullButton.render, PushPullButton.pullButton; cbn.
  rewrite Hflag, !andb_false_r. reflexivity.
Qed.

(** X12.  [networkActionInProgress] is read during an operation only:
    changing it changes the button [render] returns exactly when [progress]
    is present. *)
Theorem networkActionInProgress_only_in_progress (props : Props)
    (x : bool) :
  render (with_networkActionInProgress props x) = render props <->
  x = networkActionInProgress props \/ progress props = None.
Proof.
  unfold PushPullButton.render; cbn.
  destruct (progress props) as [pr|]; [|intuition].
  split.
  - intros H. left.
    apply (f_equal Button.iconClassName) in H. cbn in H.
    destruct x, (networkActionInProgress props);
      reflexivity || discriminate H.
  - intros [-> | H]; [reflexivity | discriminate H].
Qed.

(** X13.  [rebaseInProgress] is read for the detached-head button only:
    changing it changes the button [render] returns exactly when [progress]
    is absent, [remoteName] is present and the tip is detached. *)
Theorem rebaseInProgress_only_when_detached (props : Props) (x : bool) :
  render (with_rebaseInProgress props x) = render props <->
  x = rebaseInProgress props \/ progress props <> None \/
  remoteName props = None \/ tipState props <> Detached.
Proof.
  unfold PushPullButton.render; cbn.
  destruct (progress props) as [pr|];
    [split; [right; left; discriminate | reflexivity]|].
  destruct (remoteName props) as [r|];
    [|split; [right; right; left; reflexivity | reflexivity]].
  destruct (tipState props); cbn;
    try (split; [right; right; right; discriminate | reflexivity]).
  split.
  - intros H. left.
    apply (f_equal Button.description) in H. cbn in H.
    destruct x, (rebaseInProgress props);
      reflexivity || discriminate H.
  - intros [-> | [H | [H | H]]];
      [reflexivity | now elim H | discriminate H | now elim H].
Qed.

(** X14.  [render] never reads the dispatcher, and reads the repository for
    the description of the enabled publish-branch button only: with another
    repository the button is the same in every other attribute, and the same
    altogether unless it is that button, or when both repositories agree on
    having a GitHub repository. *)
Theorem repository_only_in_publish_branch (props : Props)
    (d : Dispatcher) (repo : Repository) :
  let b := render props in
  let b' := render (with_repository props repo) in
  render (with_dispatcher props d) = b /\
  with_description b' (Button.description b) = b /\
  (b' <> b -> is_kind Spec.PublishBranch b) /\
  (notnot (gitHubRepository repo) =
   notnot (gitHubRepository (repository props)) -> b' = b).
Proof.
  intros b b'. subst b b'. rewrite kind_of_render.
  by_props props; repeat split; intros; try reflexivity;
    try match goal with
        | H : ?x <> ?x |- _ => now elim H
        end;
    try (f_equal; assumption).
Qed.

(** X15.  Running the click handler of the button [render] returns calls the
    dispatcher of the props on the repository of the props: [pull] exactly
    on the pull button, [fetch] as a user-initiated task exactly on the
    fetch button, [push] exactly on the publish-repository, publish-branch
    and push buttons, and nothing exactly when the button is disabled. *)
Theorem click_dispatches (props : Props) :
  let b := render props in
  let call := option_map (run props) (Button.onClick b) in
  (call = None <-> Button.enabled b = false) /\
  (call = Some (dispatcher_pull (dispatcher props) (repository props)) <->
   is_kind Spec.Pull b) /\
  (call = Some (dispatcher_fetch (dispatcher props) (repository props)
                  UserInitiatedTask) <->
   is_kind Spec.Fetch b) /\
  (call = Some (dispatcher_push (dispatcher props) (repository props)) <->
   is_kind Spec.PublishRepo b \/ is_kind Spec.PublishBranch b \/
   is_kind Spec.Push b).
Proof.
  intros b call. subst b call. rewrite !kind_of_render.
  by_row props; same_props; cbn;
    repeat split; intros;
    repeat match goal with
           | H : _ \/ _ |- _ => destruct H
           end;
    try reflexivity; try discriminate; auto.
Qed.

(** X16.  On the fetch, pull and push buttons the description tells the last
    fetch: it is the text "Never fetched" exactly when [lastFetched] is
    absent, and the relative time of that very date when it is present. *)
Theorem lastFetched_shown (props : Props) :
  let b := render props in
  is_kind Spec.Fetch b \/ is_kind Spec.Pull b \/ is_kind Spec.Push b ->
  (Button.description b = Text "Never fetched" <->
   lastFetched props = None) /\
  (forall date, Button.description b = LastFetchedSpan date <->
                lastFetched props = Some date).
Proof.
  intros b H. subst b. rewrite !kind_of_render in H.
  by_row props; same_props; cbn;
    try (destruct H as [H | [H | H]]; discriminate H);
    destruct (lastFetched props); cbn;
    repeat split; intros; try reflexivity; try discriminate; congruence.
Qed.

(** X17.  During an operation [render] reads [progress] and
    [networkActionInProgress] and nothing else: two props with the same
    progress, present, and the same [networkActionInProgress] get the same
    button, whatever their remote, tip state and counts are. *)
Theorem in_progress_reads_progress_only (props props' : Props) :
  progress props <> None ->
  progress props' = progress props ->
  networkActionInProgress props' = networkActionInProgress props ->
  render props' = render props.
Proof.
  intros Hp Heq Hn. unfold PushPullButton.render. rewrite Heq, Hn.
  destruct (progress props) as [pr|]; [|now elim Hp].
  unfold progressButton. rewrite !renderAheadBehind_in_progress.
  reflexivity.
Qed.

End Properties.

(** ** The scenarios of the specification *)

Example scenario_A (flag : bool) :
  render flag unpublished = publishRepositoryButton push.
Proof. reflexivity. Qed.

Example scenario_B (flag : bool) :
  is_kind flag Spec.Fetch (render flag in_sync) /\
  Button.title (render flag in_sync) = "Fetch origin" /\
  Button.badge (render flag in_sync) = [].
Proof. repeat split. exact (render_kind flag in_sync). Qed.

Example scenario_C :
  Button.title (render true diverged) = "Pull origin" /\
  Button.onClick (render true diverged) = Some pull /\
  Button.badge (render true diverged) =
    [ {| key := "ahead"; count := 2; symbol := arrowSmallUp |};
      {| key := "behind"; count := 3; symbol := arrowSmallDown |} ].
Proof. repeat split. Qed.

Example scenario_D (flag : bool) :
  Button.title (render flag ahead_only) = "Push origin" /\
  Button.onClick (render flag ahead_only) = Some push /\
  Button.badge (render flag ahead_only) =
    [ {| key := "ahead"; count := 4; symbol := arrowSmallUp |} ].
Proof. repeat split. Qed.

Example scenario_E (flag : bool) :
  render flag detached_rebasing = detachedHeadButton true /\
  Button.description (render flag detached_rebasing) =
    Text "Rebase in progress" /\
  Button.enabled (render flag detached_rebasing) = false.
Proof. repeat split. Qed.

(** A click on the pull button of scenario C asks the dispatcher to pull. *)
Example scenario_C_click :
  option_map (run diverged) (Button.onClick (render true diverged)) =
  Some (dispatcher_pull tt (repository diverged)).
Proof. reflexivity. Qed.

(** ** The properties at sample statuses *)

(** C1 as worded fails on a progress whose description is the empty string:
    the button shows "Hang on…", not the empty description. *)
Lemma blank_description_not_verbatim : ~ claim_in_progress true pushing_blank.
Proof.
  intros H.
  destruct (H _ eq_refl) as (_ & _ & _ & _ & _ & Hd & _).
  specialize (Hd EmptyString eq_refl). discriminate Hd.
Qed.

Lemma in_progress_first_witness :
  progress pushing <> None /\
  Button.title (render true pushing) = "Pushing to origin" /\
  Button.description (render true pushing) = Text "Writing objects" /\
  Button.enabled (render true pushing) = false.
Proof.
  split; [discriminate|].
  destruct (in_progress_first true pushing _ eq_refl)
    as (_ & He & _ & _ & Ht & Hd & _).
  split; [exact Ht|].
  split; [|exact He].
  apply Hd; [reflexivity|discriminate].
Defined.

(** C2 as worded fails on a repository that was never published: with two
    commits ahead and three behind the button is the publish-repository
    one, bound to [push]. *)
Lemma diverged_unpublished_not_pull :
  ~ claim_pull_first true diverged_unpublished.
Proof.
  intros H.
  destruct (H _ eq_refl) as (_ & Hc & _); [reflexivity | reflexivity |].
  discriminate Hc.
Qed.

Lemma pull_before_push_witness :
  aheadBehind diverged = counts 2 3 /\
  is_kind true Spec.Pull (render true diverged) /\
  ~ is_kind true Spec.Push (render true diverged).
Proof.
  split; [reflexivity|].
  destruct (pull_before_push true diverged {| ahead := 2; behind := 3 |}
              eq_refl eq_refl eq_refl) as (Hn & Hp).
  split; [|exact Hn].
  apply Hp; [reflexivity | discriminate | discriminate | discriminate].
Defined.

Lemma action_iff_enabled_witness :
  Button.enabled (render true in_sync) = true /\
  Button.onClick (render true in_sync) = Some fetch.
Proof.
  destruct (action_iff_enabled true in_sync) as (_ & _ & _ & Hf & _).
  apply Hf. exact (render_kind true in_sync).
Defined.

Lemma badge_only_with_counts_witness :
  (exists e, In e (entries (renderAheadBehind None (counts 4 0))) /\
             key e = "ahead") /\
  ~ (exists e, In e (entries (renderAheadBehind None (counts 4 0))) /\
               key e = "behind").
Proof.
  destruct (badge_only_with_counts true ahead_only) as (_ & _ & H).
  destruct (H {| ahead := 4; behind := 0 |}) as (Ha & Hb & _).
  split.
  - apply Ha. reflexivity.
  - intros He. apply Hb in He. discriminate He.
Defined.

(** C5 as worded fails on an unborn tip in a repository that was never
    published: the button is the publish-repository one, enabled. *)
Lemma unborn_unpublished_is_enabled : ~ claim_unborn true unborn_unpublished.
Proof.
  intros H.
  destruct (H eq_refl) as (_ & He & _).
  discriminate He.
Qed.

Lemma unborn_cannot_publish_witness :
  tipState unborn = Unborn /\
  render true unborn = unbornRepositoryButton.
Proof.
  split; [reflexivity|].
  apply (unborn_cannot_publish true unborn);
    [reflexivity | discriminate | reflexivity].
Defined.

Lemma publish_repository_without_remote_witness :
  remoteName unpublished = None /\
  Button.onClick (render true unpublished) = Some push.
Proof.
  split; [reflexivity|].
  apply (publish_repository_without_remote true unpublished);
    reflexivity.
Defined.

Lemma pull_title_rebase_iff_witness :
  exists r,
    remoteName (with_pullWithRebase diverged (Some true)) = Some r /\
    Button.title (render true (with_pullWithRebase diverged (Some true))) =
      ("Pull " ++ r ++ " with rebase")%string.
Proof.
  destruct (pull_title_rebase_iff true
              (with_pullWithRebase diverged (Some true)))
    as (r & Hr & Hiff & _).
  - exact (render_kind true (with_pullWithRebase diverged (Some true))).
  - exists r. split; [exact Hr|]. apply Hiff. split; reflexivity.
Defined.

Lemma render_total_deterministic_witness :
  render_checked true diverged = Normal (render true diverged) /\
  render_checked true (with_lastFetched diverged None) =
  render_checked true diverged.
Proof.
  destruct (render_total_deterministic true diverged) as (Hn & _ & Hd).
  split; [exact Hn|]. apply Hd. reflexivity.
Defined.

Lemma pullWithRebase_omitted_is_false_witness :
  pullWithRebase diverged = None /\
  render true diverged =
  render true (with_pullWithRebase diverged (Some false)).
Proof.
  split; [reflexivity|].
  apply (pullWithRebase_omitted_is_false true diverged). reflexivity.
Defined.

Lemma lastFetched_changes_description_only_witness :
  Button.onClick (render true diverged) =
  Button.onClick (render true (with_lastFetched diverged (Some 1700000000000))).
Proof.
  apply (lastFetched_changes_description_only true diverged
           (with_lastFetched diverged (Some 1700000000000)) eq_refl).
Defined.

(** ** The further properties at sample statuses *)

Lemma detached_head_cannot_publish_witness :
  tipState detached_rebasing = Detached /\
  Button.description (render true detached_rebasing) =
    Text "Rebase in progress".
Proof.
  split; [reflexivity|].
  destruct (detached_head_cannot_publish true detached_rebasing)
    as (_ & _ & _ & _ & _ & Hd & _);
    [reflexivity | discriminate | reflexivity |].
  apply Hd. reflexivity.
Defined.

Lemma publish_branch_without_upstream_witness :
  aheadBehind unpublished_branch = None /\
  Button.onClick (render true unpublished_branch) = Some push /\
  Button.description (render true unpublished_branch) =
    Text "Publish this branch to the remote".
Proof.
  split; [reflexivity|].
  destruct (publish_branch_without_upstream true unpublished_branch)
    as (_ & _ & _ & Hc & _ & _ & Hd);
    [reflexivity | discriminate | discriminate | discriminate
    | reflexivity |].
  split; [exact Hc|]. apply Hd. reflexivity.
Defined.

Lemma fetch_iff_in_sync_witness :
  is_kind true Spec.Fetch (render true in_sync) /\
  ~ is_kind true Spec.Fetch (render true diverged).
Proof.
  split.
  - apply (proj1 (fetch_iff_in_sync true in_sync)).
    repeat split; try discriminate.
    exists {| ahead := 0; behind := 0 |}. repeat split.
  - intros H.
    apply (proj1 (fetch_iff_in_sync true diverged)) in H.
    destruct H as (_ & _ & _ & _ & ab & Hab & Ha & _).
    injection Hab as <-. discriminate Ha.
Defined.

Lemma pull_iff_behind_witness :
  is_kind true Spec.Pull (render true behind_only) /\
  Button.badge (render true behind_only) =
    [ {| key := "behind"; count := 1; symbol := arrowSmallDown |} ].
Proof.
  assert (Hk : is_kind true Spec.Pull (render true behind_only)).
  { apply (proj1 (pull_iff_behind true behind_only)).
    repeat split; try discriminate.
    exists {| ahead := 0; behind := 1 |}. repeat split. }
  split; [exact Hk|].
  destruct (proj2 (pull_iff_behind true behind_only) Hk) as (ab & Hab & Hb).
  injection Hab as <-. exact Hb.
Defined.

Lemma push_iff_ahead_only_witness :
  is_kind true Spec.Push (render true ahead_only) /\
  Button.title (render true ahead_only) = "Push origin".
Proof.
  assert (Hk : is_kind true Spec.Push (render true ahead_only)).
  { apply (proj1 (push_iff_ahead_only true ahead_only)).
    repeat split; try discriminate.
    exists {| ahead := 4; behind := 0 |}.
    repeat split; try discriminate. intros [Ha _]. discriminate Ha. }
  split; [exact Hk|].
  destruct (proj2 (push_iff_ahead_only true ahead_only) Hk)
    as (r & ab & Hr & _ & Ht & _).
  injection Hr as <-. exact Ht.
Defined.

Lemma badge_iff_pull_or_push_witness :
  Button.children (render true diverged) <> None.
Proof.
  apply (badge_iff_pull_or_push true diverged).
  left. exact (render_kind true diverged).
Defined.

Lemma badge_entries_positive_distinct_witness :
  NoDup (map key (Button.badge (render true diverged))).
Proof.
  exact (proj2 (proj2 (proj2
           (badge_entries_positive_distinct true diverged None None)))).
Defined.

Lemma badge_empty_iff_nonpositive_witness :
  renderAheadBehind None (counts 4 0) =
    Some {| divClassName := "ahead-behind";
            content := [ {| key := "ahead"; count := 4;
                            symbol := arrowSmallUp |} ] |} /\
  content {| divClassName := "ahead-behind";
             content := [ {| key := "ahead"; count := 4;
                             symbol := arrowSmallUp |} ] |} <> [].
Proof.
  split; [reflexivity|].
  apply (badge_empty_iff_nonpositive None {| ahead := 4; behind := 0 |} _
           eq_refl); discriminate.
Defined.

Lemma flag_off_ignores_preference_witness :
  render false (with_pullWithRebase diverged (Some true)) =
  render false diverged.
Proof.
  apply (flag_off_ignores_preference false diverged (Some true)).
  reflexivity.
Defined.

Lemma networkActionInProgress_only_in_progress_witness :
  render true (with_networkActionInProgress diverged true) =
  render true diverged /\
  render true (with_networkActionInProgress pushing true) <>
  render true pushing.
Proof.
  split.
  - apply (networkActionInProgress_only_in_progress true diverged true).
    right. reflexivity.
  - intros H.
    apply (networkActionInProgress_only_in_progress true pushing true) in H.
    destruct H as [H | H]; discriminate H.
Defined.

Lemma rebaseInProgress_only_when_detached_witness :
  render true (with_rebaseInProgress diverged true) = render true diverged /\
  render true (with_rebaseInProgress detached_rebasing false) <>
  render true detached_rebasing.
Proof.
  split.
  - apply (rebaseInProgress_only_when_detached true diverged true).
    right. right. right. discriminate.
  - intros H.
    apply (rebaseInProgress_only_when_detached true detached_rebasing false)
      in H.
    destruct H as [H | [H | [H | H]]];
      [discriminate H | now elim H | discriminate H | now elim H].
Defined.

Lemma repository_only_in_publish_branch_witness :
  render true
    (with_repository unpublished_branch {| gitHubRepository := None |}) =
  render true unpublished_branch.
Proof.
  apply (repository_only_in_publish_branch true unpublished_branch tt
           {| gitHubRepository := None |}).
  reflexivity.
Defined.

Lemma click_dispatches_witness :
  option_map (run diverged) (Button.onClick (render true diverged)) =
  Some (dispatcher_pull (dispatcher diverged) (repository diverged)).
Proof.
  apply (click_dispatches true diverged).
  exact (render_kind true diverged).
Defined.

Lemma lastFetched_shown_witness :
  lastFetched diverged = None /\
  Button.description (render true diverged) = Text "Never fetched".
Proof.
  split; [reflexivity|].
  apply (lastFetched_shown true diverged).
  - right. left. exact (render_kind true diverged).
  - reflexivity.
Defined.

Lemma in_progress_reads_progress_only_witness :
  progress pushing <> None /\
  render true (with_lastFetched pushing (Some 1700000000000)) =
  render true pushing.
Proof.
  split; [discriminate|].
  apply (in_progress_reads_progress_only true pushing
           (with_lastFetched pushing (Some 1700000000000)));
    [discriminate | reflexivity | reflexivity].
Defined.
